(** * The basic autoencoder module

    A shallow embedding of
    [pl_bolts/models/autoencoders/basic_ae/basic_ae_module.py]: the class
    [AE] (constructor, pretrained-weights registry, forward and step
    functions, optimizer configuration, command-line arguments) and the
    script entry point [cli_main].

    The module is glue over a training framework.  Every call that leaves
    the file (network factories, tensor operations, the argument parser,
    data modules, the trainer) is an operation of the class [Framework]
    below; the code of the file runs in a monad that records these calls
    in order and carries the exceptions the file can raise. *)

From Stdlib Require Import String List ZArith PrimFloat DecimalString Permutation.
Import ListNotations.

Set Warnings "-inexact-float".

Local Open Scope string_scope.
Local Open Scope list_scope.
Local Open Scope Z_scope.

(** ** Python dictionaries

    A dictionary keeps its keys in insertion order ([keys] and [items]
    expose that order), so it is an association list. *)

Module PyDict.

Definition t (V : Type) : Type := list (string * V).

Fixpoint get {V : Type} (k : string) (d : t V) : option V :=
  match d with
  | [] => None
  | (k', v) :: d' => if String.eqb k k' then Some v else get k d'
  end.

(** [k in d] *)
Definition contains {V : Type} (k : string) (d : t V) : bool :=
  match get k d with
  | Some _ => true
  | None => false
  end.

(** [d.keys()] *)
Definition keys {V : Type} (d : t V) : list string := map fst d.

(** [d.items()] *)
Definition items {V : Type} (d : t V) : list (string * V) := d.

(** [{f(k): v for k, v in d.items()}] for a renaming [f] of the keys. *)
Definition map_keys {V : Type} (f : string -> string) (d : t V) : t V :=
  map (fun kv => (f (fst kv), snd kv)) (items d).

End PyDict.

(** ** Python values

    The values that travel in [**kwargs] and in the frame the framework
    snapshots in [save_hyperparameters]. *)

Inductive PyVal : Type :=
| PyNone
| PyBool (b : bool)
| PyInt (z : Z)
| PyFloat (f : float)
| PyStr (s : string).

Definition py_opt_int (o : option Z) : PyVal :=
  match o with
  | Some z => PyInt z
  | None => PyNone
  end.

(** ** The command line: argument declarations and namespaces *)

Inductive ArgType : Type := TyStr | TyInt | TyFloat.

Inductive ArgAction : Type :=
| Store (ty : ArgType)
| StoreTrue.

Record ArgSpec : Type := mkArg {
  arg_flag : string;
  arg_action : ArgAction;
  arg_default : PyVal;
  arg_help : option string
}.

(** An [ArgumentParser]: the arguments declared so far, in order, and the
    [add_help] flag it was created with. *)
Record Parser : Type := mkParser {
  parser_args : list ArgSpec;
  parser_add_help : bool
}.

(** [ArgumentParser(parents=ps, add_help=h)]: the parents' declarations
    are copied in order.  The help action a parent may carry is not among
    the declarations kept here. *)
Definition ArgumentParser (parents : list Parser) (add_help : bool) : Parser :=
  {| parser_args := flat_map parser_args parents; parser_add_help := add_help |}.

(** [parser.add_argument(...)], for an option string the parser does not
    declare yet; argparse refuses a second declaration of an option
    string, which this list does not check. *)
Definition add_argument (p : Parser) (a : ArgSpec) : Parser :=
  {| parser_args := parser_args p ++ [a]; parser_add_help := parser_add_help p |}.

(** The namespace of the first parse, which declares [--dataset] only. *)
Record ScriptArgs : Type := mkScriptArgs {
  script_dataset : string
}.

(** The namespace of the full parse ([args] in [cli_main]): one attribute
    per declared argument, of the declared type.  [max_steps] holds an
    integer or [None]; [input_height] is the attribute [cli_main] adds
    (the option is [None] while the attribute is not set). *)
Module Args.

Record Namespace : Type := mkNamespace {
  dataset : string;
  enc_type : string;
  first_conv : bool;
  maxpool1 : bool;
  lr : float;
  enc_out_dim : Z;
  latent_dim : Z;
  batch_size : Z;
  num_workers : Z;
  data_dir : string;
  gpus : Z;
  max_epochs : Z;
  max_steps : option Z;
  fast_dev_run : bool;
  input_height : option Z
}.

Definition set_input_height (a : Namespace) (h : Z) : Namespace :=
  {| dataset := dataset a; enc_type := enc_type a; first_conv := first_conv a;
     maxpool1 := maxpool1 a; lr := lr a; enc_out_dim := enc_out_dim a;
     latent_dim := latent_dim a; batch_size := batch_size a;
     num_workers := num_workers a; data_dir := data_dir a; gpus := gpus a;
     max_epochs := max_epochs a; max_steps := max_steps a;
     fast_dev_run := fast_dev_run a; input_height := Some h |}.

Definition set_max_steps (a : Namespace) (m : option Z) : Namespace :=
  {| dataset := dataset a; enc_type := enc_type a; first_conv := first_conv a;
     maxpool1 := maxpool1 a; lr := lr a; enc_out_dim := enc_out_dim a;
     latent_dim := latent_dim a; batch_size := batch_size a;
     num_workers := num_workers a; data_dir := data_dir a; gpus := gpus a;
     max_epochs := max_epochs a; max_steps := m;
     fast_dev_run := fast_dev_run a; input_height := input_height a |}.

(** [args.max_steps == -1] *)
Definition max_steps_is (a : Namespace) (z : Z) : bool :=
  match max_steps a with
  | Some m => m =? z
  | None => false
  end.

End Args.

(** The data modules the file imports. *)
Inductive DataModuleClass : Type :=
| BinaryMNISTDataModule
| CIFAR10DataModule
| ImagenetDataModule
| MNISTDataModule
| STL10DataModule.

(** The network factories the file imports from the components package. *)
Inductive EncoderFn : Type := resnet18_encoder | resnet50_encoder.
Inductive DecoderFn : Type := resnet18_decoder | resnet50_decoder.

(** ** The framework

    What the file calls and does not define.  Each operation is total:
    failures inside the framework (shapes, devices, files, malformed
    command lines) are its own concern and are not part of this
    development. *)

Class Framework : Type := {
  Tensor : Type;
  Label : Type;
  Net : Type;
  Params : Type;
  Optimizer : Type;
  StepResult : Type;
  Checkpoint : Type;
  DataModule : Type;
  Trainer : Type;
  Callback : Type;
  (* pl_bolts.models.autoencoders.components and torch.nn *)
  call_encoder : EncoderFn -> bool -> bool -> Net;
  call_decoder : DecoderFn -> Z -> Z -> bool -> bool -> Net;
  nn_Linear : Z -> Z -> Net;
  net_call : Net -> Tensor -> Tensor;
  mse_loss : Tensor -> Tensor -> string -> Tensor;
  (* torch.optim and nn.Module.parameters over the registered children *)
  parameters : list (string * Net) -> Params;
  Adam : Params -> float -> Optimizer;
  (* pytorch_lightning *)
  TrainResult : Tensor -> StepResult;
  EvalResult : Tensor -> StepResult;
  log_dict : StepResult -> PyDict.t Tensor -> option bool -> option bool -> StepResult;
  load_from_checkpoint : string -> bool -> Checkpoint;
  Trainer_from_argparse_args : Args.Namespace -> Trainer;
  (* argparse *)
  parse_known_args : Parser -> option (list string) -> ScriptArgs * list string;
  parse_args : Parser -> option (list string) -> Args.Namespace;
  (* pl_bolts.datamodules and pl_bolts.callbacks *)
  from_argparse_args : DataModuleClass -> Args.Namespace -> DataModule;
  dm_size : DataModule -> list Z;
  TensorboardGenerativeModelImageSampler : Callback
}.

(** ** Exceptions and the monad of the file's code *)

Inductive Exn : Type :=
| KeyError (msg : string)
| ValueError (msg : string)
| IndexError (msg : string)
| TypeError (msg : string).

(** A computation returns, or stops at a [raise] statement of the file
    ([Raise]), or stops because the interpreter rejects one of the file's
    own operations, a subscript or a call binding ([Fault]). *)
Inductive outcome (A : Type) : Type :=
| Return (a : A)
| Raise (e : Exn)
| Fault (e : Exn).

Arguments Return {A} a.
Arguments Raise {A} e.
Arguments Fault {A} e.

(** The outcome together with the framework calls made, oldest first. *)
Definition M (E A : Type) : Type := (outcome A * list E)%type.

Definition ret {E A : Type} (a : A) : M E A := (Return a, []).

Definition bind {E A B : Type} (m : M E A) (f : A -> M E B) : M E B :=
  match m with
  | (Return a, t) => let (r, t') := f a in (r, t ++ t')
  | (Raise e, t) => (Raise e, t)
  | (Fault e, t) => (Fault e, t)
  end.

Definition raise {E A : Type} (e : Exn) : M E A := (Raise e, []).

Definition fault {E A : Type} (e : Exn) : M E A := (Fault e, []).

(** A framework call: the event is recorded, the framework's answer returned. *)
Definition ext {E A : Type} (ev : E) (a : A) : M E A := (Return a, [ev]).

Definition result {E A : Type} (m : M E A) : outcome A := fst m.

Definition trace {E A : Type} (m : M E A) : list E := snd m.

Notation "x <- m ;; k" := (bind m (fun x => k))
  (at level 61, m at next level, right associativity).
Notation "' pat <- m ;; k" := (bind m (fun x => match x with pat => k end))
  (at level 61, pat pattern, m at next level, right associativity).

(** [d[k]] *)
Definition getitem {E V : Type} (d : PyDict.t V) (k : string) : M E V :=
  match PyDict.get k d with
  | Some v => ret v
  | None => fault (KeyError k)
  end.

(** [t[-1]] on a tuple *)
Definition getitem_last {E : Type} (t : list Z) : M E Z :=
  match rev t with
  | x :: _ => ret x
  | [] => fault (IndexError "tuple index out of range")
  end.

(** ** The class [AE]: data *)

(** The arguments of [AE.__init__]. *)
Module Init.

Record Args : Type := mkArgs {
  input_height : Z;
  enc_type : string;
  first_conv : bool;
  maxpool1 : bool;
  enc_out_dim : Z;
  kl_coeff : float;
  latent_dim : Z;
  lr : float;
  kwargs : PyDict.t PyVal
}.

(** The defaults of the signature: [AE(input_height)]. *)
Definition defaults (input_height : Z) : Args :=
  {| input_height := input_height;
     enc_type := "resnet18";
     first_conv := false;
     maxpool1 := false;
     enc_out_dim := 512;
     kl_coeff := 0.1%float;
     latent_dim := 256;
     lr := 1e-4%float;
     kwargs := [] |}.

(** The local variables of the constructor's frame, which
    [save_hyperparameters()] reads. *)
Definition frame (a : Args) : PyDict.t PyVal :=
  [("input_height", PyInt (input_height a));
   ("enc_type", PyStr (enc_type a));
   ("first_conv", PyBool (first_conv a));
   ("maxpool1", PyBool (maxpool1 a));
   ("enc_out_dim", PyInt (enc_out_dim a));
   ("kl_coeff", PyFloat (kl_coeff a));
   ("latent_dim", PyInt (latent_dim a));
   ("lr", PyFloat (lr a))] ++ kwargs a.

(** The same call with another [enc_type]. *)
Definition with_enc_type (a : Args) (e : string) : Args :=
  {| input_height := input_height a; enc_type := e; first_conv := first_conv a;
     maxpool1 := maxpool1 a; enc_out_dim := enc_out_dim a; kl_coeff := kl_coeff a;
     latent_dim := latent_dim a; lr := lr a; kwargs := kwargs a |}.

End Init.

(** How the unpacked [vars(args)] binds the parameters of [__init__]: the
    attributes that name a parameter bind it, the others go to
    [**kwargs] in the order the namespace holds them; [kl_coeff] keeps its
    default. *)
Definition init_of_vars (args : Args.Namespace) (h : Z) : Init.Args :=
  {| Init.input_height := h;
     Init.enc_type := Args.enc_type args;
     Init.first_conv := Args.first_conv args;
     Init.maxpool1 := Args.maxpool1 args;
     Init.enc_out_dim := Args.enc_out_dim args;
     Init.kl_coeff := Init.kl_coeff (Init.defaults h);
     Init.latent_dim := Args.latent_dim args;
     Init.lr := Args.lr args;
     Init.kwargs :=
       [("dataset", PyStr (Args.dataset args));
        ("batch_size", PyInt (Args.batch_size args));
        ("num_workers", PyInt (Args.num_workers args));
        ("data_dir", PyStr (Args.data_dir args));
        ("gpus", PyInt (Args.gpus args));
        ("max_epochs", PyInt (Args.max_epochs args));
        ("max_steps", py_opt_int (Args.max_steps args));
        ("fast_dev_run", PyBool (Args.fast_dev_run args))] |}.

(** An entry of [valid_encoders]: [{'enc': ..., 'dec': ...}]. *)
Record EncDec : Type := mkEncDec {
  enc : EncoderFn;
  dec : DecoderFn
}.

Definition valid_encoders : PyDict.t EncDec :=
  [("resnet18", {| enc := resnet18_encoder; dec := resnet18_decoder |});
   ("resnet50", {| enc := resnet50_encoder; dec := resnet50_decoder |})].

Definition pretrained_urls : PyDict.t string :=
  [("cifar10-resnet18",
    "https://pl-bolts-weights.s3.us-east-2.amazonaws.com/ae/ae-cifar10/checkpoints/epoch%3D96.ckpt")].

(** ** The class [AE]: code *)

Section WithFramework.

Context {F : Framework}.

(** The attributes [__init__] sets on [self]. *)
Record AE : Type := mkAE {
  lr : float;
  enc_out_dim : Z;
  latent_dim : Z;
  input_height : Z;
  encoder : Net;
  decoder : Net;
  fc : Net
}.

(** The calls that leave the file. *)
Inductive Event : Type :=
| EvSuperInit
| EvSaveHyperparameters (frame : PyDict.t PyVal)
| EvCallEncoder (f : EncoderFn) (first_conv maxpool1 : bool)
| EvCallDecoder (f : DecoderFn) (latent_dim input_height : Z) (first_conv maxpool1 : bool)
| EvLinear (in_features out_features : Z)
| EvNetCall (n : Net) (x : Tensor)
| EvMseLoss (input target : Tensor) (reduction : string)
| EvParameters (children : list (string * Net))
| EvAdam (params : Params) (lr : float)
| EvTrainResult (minimize : Tensor)
| EvEvalResult (checkpoint_on : Tensor)
| EvLogDict (r : StepResult) (d : PyDict.t Tensor) (on_step on_epoch : option bool)
| EvLoadFromCheckpoint (url : string) (strict : bool)
| EvImportCallbacks
| EvParseKnownArgs (p : Parser) (argv : option (list string))
| EvParseArgs (p : Parser) (argv : option (list string))
| EvFromArgparseArgs (cls : DataModuleClass) (a : Args.Namespace)
| EvSize (dm : DataModule)
| EvSampler
| EvTrainerFromArgparseArgs (a : Args.Namespace)
| EvFit (t : Trainer) (model : AE) (dm : DataModule).

Definition new_encoder (f : EncoderFn) (first_conv maxpool1 : bool) : M Event Net :=
  ext (EvCallEncoder f first_conv maxpool1) (call_encoder f first_conv maxpool1).

Definition new_decoder (f : DecoderFn) (latent_dim input_height : Z)
    (first_conv maxpool1 : bool) : M Event Net :=
  ext (EvCallDecoder f latent_dim input_height first_conv maxpool1)
      (call_decoder f latent_dim input_height first_conv maxpool1).

Definition new_Linear (in_features out_features : Z) : M Event Net :=
  ext (EvLinear in_features out_features) (nn_Linear in_features out_features).

(** [module(x)] *)
Definition call (n : Net) (x : Tensor) : M Event Tensor :=
  ext (EvNetCall n x) (net_call n x).

Definition F_mse_loss (input target : Tensor) (reduction : string) : M Event Tensor :=
  ext (EvMseLoss input target reduction) (mse_loss input target reduction).

(** [AE.__init__] *)
Definition AE_init (a : Init.Args) : M Event AE :=
  _ <- ext EvSuperInit tt ;;
  _ <- ext (EvSaveHyperparameters (Init.frame a)) tt ;;
  let self_lr := Init.lr a in
  let self_enc_out_dim := Init.enc_out_dim a in
  let self_latent_dim := Init.latent_dim a in
  let self_input_height := Init.input_height a in
  '(self_encoder, self_decoder) <-
    (if negb (PyDict.contains (Init.enc_type a) valid_encoders) then
       e <- new_encoder resnet18_encoder (Init.first_conv a) (Init.maxpool1 a) ;;
       d <- new_decoder resnet18_decoder self_latent_dim self_input_height
                        (Init.first_conv a) (Init.maxpool1 a) ;;
       ret (e, d)
     else
       entry <- getitem valid_encoders (Init.enc_type a) ;;
       e <- new_encoder (enc entry) (Init.first_conv a) (Init.maxpool1 a) ;;
       entry' <- getitem valid_encoders (Init.enc_type a) ;;
       d <- new_decoder (dec entry') self_latent_dim self_input_height
                        (Init.first_conv a) (Init.maxpool1 a) ;;
       ret (e, d)) ;;
  self_fc <- new_Linear self_enc_out_dim self_latent_dim ;;
  ret {| lr := self_lr; enc_out_dim := self_enc_out_dim;
         latent_dim := self_latent_dim; input_height := self_input_height;
         encoder := self_encoder; decoder := self_decoder; fc := self_fc |}.

(** [AE.pretrained_weights_available] *)
Definition pretrained_weights_available : M Event (list string) :=
  ret (PyDict.keys pretrained_urls).

(** [AE.from_pretrained]; [str] of a string is the string. *)
Definition from_pretrained (self : AE) (checkpoint_name : string) : M Event Checkpoint :=
  if negb (PyDict.contains checkpoint_name pretrained_urls) then
    raise (KeyError (checkpoint_name ++ " not present in pretrained weights."))
  else
    url <- getitem pretrained_urls checkpoint_name ;;
    ext (EvLoadFromCheckpoint url false) (load_from_checkpoint url false).

(** [AE.forward] *)
Definition forward (self : AE) (z : Tensor) : M Event Tensor :=
  call (decoder self) z.

(** [AE.step] *)
Definition step (self : AE) (batch : Tensor * Label) (batch_idx : Z)
    : M Event (Tensor * PyDict.t Tensor) :=
  let '(x, y) := batch in
  feats <- call (encoder self) x ;;
  z <- call (fc self) feats ;;
  x_hat <- call (decoder self) z ;;
  loss <- F_mse_loss x_hat x "mean" ;;
  ret (loss, [("loss", loss)]).

(** [AE.training_step]; [log_dict] updates the result it is called on. *)
Definition training_step (self : AE) (batch : Tensor * Label) (batch_idx : Z)
    : M Event StepResult :=
  '(loss, logs) <- step self batch batch_idx ;;
  result <- ext (EvTrainResult loss) (TrainResult loss) ;;
  let d := PyDict.map_keys (fun k => ("train_" ++ k)%string) logs in
  result <- ext (EvLogDict result d (Some true) (Some false))
                (log_dict result d (Some true) (Some false)) ;;
  ret result.

(** [AE.validation_step] *)
Definition validation_step (self : AE) (batch : Tensor * Label) (batch_idx : Z)
    : M Event StepResult :=
  '(loss, logs) <- step self batch batch_idx ;;
  result <- ext (EvEvalResult loss) (EvalResult loss) ;;
  let d := PyDict.map_keys (fun k => ("val_" ++ k)%string) logs in
  result <- ext (EvLogDict result d None None) (log_dict result d None None) ;;
  ret result.

(** [self.parameters()]: the parameters of the sub-networks registered on
    [self], in the order [__init__] assigned them. *)
Definition self_parameters (self : AE) : M Event Params :=
  let children := [("encoder", encoder self); ("decoder", decoder self); ("fc", fc self)] in
  ext (EvParameters children) (parameters children).

(** [AE.configure_optimizers] *)
Definition configure_optimizers (self : AE) : M Event Optimizer :=
  ps <- self_parameters self ;;
  ext (EvAdam ps (lr self)) (Adam ps (lr self)).

(** [AE.add_model_specific_args] *)
Definition add_model_specific_args (parent_parser : Parser) : Parser :=
  let parser := ArgumentParser [parent_parser] false in
  let parser := add_argument parser
    (mkArg "--enc_type" (Store TyStr) (PyStr "resnet18") (Some "resnet18/resnet50")) in
  let parser := add_argument parser (mkArg "--first_conv" StoreTrue (PyBool false) None) in
  let parser := add_argument parser (mkArg "--maxpool1" StoreTrue (PyBool false) None) in
  let parser := add_argument parser (mkArg "--lr" (Store TyFloat) (PyFloat 1e-4) None) in
  let parser := add_argument parser
    (mkArg "--enc_out_dim" (Store TyInt) (PyInt 512)
       (Some "512 for resnet18, 2048 for bigger resnets, adjust for wider resnets")) in
  let parser := add_argument parser (mkArg "--latent_dim" (Store TyInt) (PyInt 256) None) in
  let parser := add_argument parser (mkArg "--batch_size" (Store TyInt) (PyInt 256) None) in
  let parser := add_argument parser (mkArg "--num_workers" (Store TyInt) (PyInt 8) None) in
  let parser := add_argument parser (mkArg "--data_dir" (Store TyStr) (PyStr ".") None) in
  let parser := add_argument parser (mkArg "--gpus" (Store TyInt) (PyInt 1) None) in
  let parser := add_argument parser (mkArg "--max_epochs" (Store TyInt) (PyInt 200) None) in
  let parser := add_argument parser (mkArg "--max_steps" (Store TyInt) (PyInt (-1)) None) in
  let parser := add_argument parser (mkArg "--fast_dev_run" StoreTrue (PyBool false) None) in
  parser.

(** ** The script *)

(** The call of [AE] on the unpacked [vars(args)]; without an
    [input_height] attribute the call cannot bind its first parameter. *)
Definition AE_of_vars (args : Args.Namespace) : M Event AE :=
  match Args.input_height args with
  | None =>
      fault (TypeError "__init__() missing 1 required positional argument: 'input_height'")
  | Some h => AE_init (init_of_vars args h)
  end.

(** [cli_main] *)
Definition cli_main (args : option (list string))
    : M Event (DataModule * AE * Trainer) :=
  _ <- ext EvImportCallbacks tt ;;
  let parser := ArgumentParser [] true in
  let parser := add_argument parser
    (mkArg "--dataset" (Store TyStr) (PyStr "cifar10") (Some "cifar10, stl10, imagenet")) in
  '(script_args, _) <- ext (EvParseKnownArgs parser args) (parse_known_args parser args) ;;
  dm_cls <-
    (if (script_dataset script_args =? "cifar10")%string then ret CIFAR10DataModule
     else if (script_dataset script_args =? "stl10")%string then ret STL10DataModule
     else if (script_dataset script_args =? "imagenet")%string then ret ImagenetDataModule
     else raise (ValueError ("undefined dataset " ++ script_dataset script_args))) ;;
  let parser := add_model_specific_args parser in
  args <- ext (EvParseArgs parser args) (parse_args parser args) ;;
  dm <- ext (EvFromArgparseArgs dm_cls args) (from_argparse_args dm_cls args) ;;
  size <- ext (EvSize dm) (dm_size dm) ;;
  h <- getitem_last size ;;
  let args := Args.set_input_height args h in
  let args := if Args.max_steps_is args (-1) then Args.set_max_steps args None else args in
  model <- AE_of_vars args ;;
  sampler <- ext EvSampler TensorboardGenerativeModelImageSampler ;;
  let callbacks := [sampler] in
  trainer <- ext (EvTrainerFromArgparseArgs args) (Trainer_from_argparse_args args) ;;
  _ <- ext (EvFit trainer model dm) tt ;;
  ret (dm, model, trainer).

(** ** Operations of the file and observations on a run *)

(** One constructor per function the file defines, with its inputs. *)
Inductive Op : Type :=
| OpInit (a : Init.Args)
| OpPretrainedWeightsAvailable
| OpFromPretrained (self : AE) (checkpoint_name : string)
| OpForward (self : AE) (z : Tensor)
| OpStep (self : AE) (batch : Tensor * Label) (batch_idx : Z)
| OpTrainingStep (self : AE) (batch : Tensor * Label) (batch_idx : Z)
| OpValidationStep (self : AE) (batch : Tensor * Label) (batch_idx : Z)
| OpConfigureOptimizers (self : AE)
| OpAddModelSpecificArgs (parent_parser : Parser)
| OpCliMain (args : option (list string)).

(** The exception a run stops on at a [raise] statement, if any. *)
Definition raised {A : Type} (m : M Event A) : option Exn :=
  match result m with
  | Raise e => Some e
  | _ => None
  end.

Definition explicit_error (op : Op) : option Exn :=
  match op with
  | OpInit a => raised (AE_init a)
  | OpPretrainedWeightsAvailable => raised pretrained_weights_available
  | OpFromPretrained self n => raised (from_pretrained self n)
  | OpForward self z => raised (forward self z)
  | OpStep self b i => raised (step self b i)
  | OpTrainingStep self b i => raised (training_step self b i)
  | OpValidationStep self b i => raised (validation_step self b i)
  | OpConfigureOptimizers self => raised (configure_optimizers self)
  | OpAddModelSpecificArgs p => raised (ret (add_model_specific_args p))
  | OpCliMain args => raised (cli_main args)
  end.

(** The data-module classes instantiated during a run. *)
Definition data_modules (t : list Event) : list DataModuleClass :=
  flat_map (fun ev => match ev with EvFromArgparseArgs cls _ => [cls] | _ => [] end) t.

(** The frames snapshot by [save_hyperparameters]: one per model constructed. *)
Definition hparams_frames (t : list Event) : list (PyDict.t PyVal) :=
  flat_map (fun ev => match ev with EvSaveHyperparameters fr => [fr] | _ => [] end) t.

(** The namespaces trainers were built from. *)
Definition trainer_args (t : list Event) : list Args.Namespace :=
  flat_map (fun ev => match ev with EvTrainerFromArgparseArgs a => [a] | _ => [] end) t.

(** The networks called, in order. *)
Definition nets_called (t : list Event) : list Net :=
  flat_map (fun ev => match ev with EvNetCall n _ => [n] | _ => [] end) t.

(** Whether a model was constructed or a training launched during a run. *)
Definition builds_or_trains (ev : Event) : bool :=
  match ev with
  | EvSuperInit | EvSaveHyperparameters _ | EvCallEncoder _ _ _
  | EvCallDecoder _ _ _ _ _ | EvLinear _ _ | EvTrainerFromArgparseArgs _
  | EvFit _ _ _ => true
  | _ => false
  end.

(** The two parsers of [cli_main]. *)
Definition script_parser : Parser :=
  add_argument (ArgumentParser [] true)
    (mkArg "--dataset" (Store TyStr) (PyStr "cifar10") (Some "cifar10, stl10, imagenet")).

Definition full_parser : Parser := add_model_specific_args script_parser.

End WithFramework.

(** ** A symbolic framework

    An instance of [Framework] that keeps every call as a term, used to
    run the file's code on concrete inputs. *)

Module Symbolic.

Inductive net : Type :=
| Encoder (f : EncoderFn) (first_conv maxpool1 : bool)
| Decoder (f : DecoderFn) (latent_dim input_height : Z) (first_conv maxpool1 : bool)
| Linear (in_features out_features : Z).

Inductive tensor : Type :=
| Image (id : Z)
| Apply (n : net) (x : tensor)
| Mse (input target : tensor) (reduction : string).

(** The value that follows the last occurrence of [flag]. *)
Fixpoint argv_value (flag : string) (argv : list string) : option string :=
  match argv with
  | a :: rest =>
      match argv_value flag rest with
      | Some v => Some v
      | None =>
          match rest with
          | v :: _ => if (a =? flag)%string then Some v else None
          | [] => None
          end
      end
  | [] => None
  end.

Definition argv_flag (flag : string) (argv : list string) : bool :=
  existsb (String.eqb flag) argv.

Definition argv_of (args : option (list string)) : list string :=
  match args with
  | Some l => l
  | None => []
  end.

Definition str_arg (flag default : string) (argv : list string) : string :=
  match argv_value flag argv with
  | Some v => v
  | None => default
  end.

Definition int_arg (flag : string) (default : Z) (argv : list string) : Z :=
  match argv_value flag argv with
  | Some v =>
      match NilZero.int_of_string v with
      | Some i => Z.of_int i
      | None => default
      end
  | None => default
  end.

Definition parse (args : option (list string)) : Args.Namespace :=
  let argv := argv_of args in
  {| Args.dataset := str_arg "--dataset" "cifar10" argv;
     Args.enc_type := str_arg "--enc_type" "resnet18" argv;
     Args.first_conv := argv_flag "--first_conv" argv;
     Args.maxpool1 := argv_flag "--maxpool1" argv;
     Args.lr := 1e-4%float;
     Args.enc_out_dim := int_arg "--enc_out_dim" 512 argv;
     Args.latent_dim := int_arg "--latent_dim" 256 argv;
     Args.batch_size := int_arg "--batch_size" 256 argv;
     Args.num_workers := int_arg "--num_workers" 8 argv;
     Args.data_dir := str_arg "--data_dir" "." argv;
     Args.gpus := int_arg "--gpus" 1 argv;
     Args.max_epochs := int_arg "--max_epochs" 200 argv;
     Args.max_steps := Some (int_arg "--max_steps" (-1) argv);
     Args.fast_dev_run := argv_flag "--fast_dev_run" argv;
     Args.input_height := None |}.

Definition size (cls : DataModuleClass) : list Z :=
  match cls with
  | BinaryMNISTDataModule | MNISTDataModule => [1; 28; 28]
  | CIFAR10DataModule => [3; 32; 32]
  | STL10DataModule => [3; 96; 96]
  | ImagenetDataModule => [3; 224; 224]
  end.

#[export] Instance framework : Framework := {|
  Tensor := tensor;
  Label := Z;
  Net := net;
  Params := list (string * net);
  Optimizer := list (string * net) * float;
  StepResult := tensor * PyDict.t tensor;
  Checkpoint := string;
  DataModule := DataModuleClass;
  Trainer := Args.Namespace;
  Callback := unit;
  call_encoder := Encoder;
  call_decoder := Decoder;
  nn_Linear := Linear;
  net_call := Apply;
  mse_loss := Mse;
  parameters := fun children => children;
  Adam := fun ps lr => (ps, lr);
  TrainResult := fun loss => (loss, []);
  EvalResult := fun loss => (loss, []);
  log_dict := fun r d _ _ => (fst r, snd r ++ d);
  load_from_checkpoint := fun url _ => url;
  Trainer_from_argparse_args := fun a => a;
  parse_known_args := fun _ args =>
    ({| script_dataset := str_arg "--dataset" "cifar10" (argv_of args) |}, []);
  parse_args := fun _ args => parse args;
  from_argparse_args := fun cls _ => cls;
  dm_size := size;
  TensorboardGenerativeModelImageSampler := tt
|}.

(** Sample inputs. *)

(** A constructor call with an encoder type the file does not know. *)
Definition vgg_args : Init.Args := Init.with_enc_type (Init.defaults 32) "vgg16".

(** The script on STL10 with the default [--max_steps], with 500 steps,
    and on a dataset the script does not define. *)
Definition stl10_argv : option (list string) := Some ["--dataset"; "stl10"].

Definition stl10_500_argv : option (list string) :=
  Some ["--dataset"; "stl10"; "--max_steps"; "500"].

Definition mnist_argv : option (list string) := Some ["--dataset"; "mnist"].

End Symbolic.

(** More sample inputs on the symbolic framework. *)
Module Samples.

(** The script on STL10 with an encoder type the file does not know. *)
Definition vgg_argv : option (list string) :=
  Some ["--dataset"; "stl10"; "--enc_type"; "vgg16"].

(** The constructor's defaults on 32-pixel images, and a batch. *)
Definition cifar_args : Init.Args := Init.defaults 32.

Definition batch : Symbolic.tensor * Z := (Symbolic.Image 0, 7).

(** The object the constructor returns on [cifar_args]. *)
Definition model : AE (F := Symbolic.framework) :=
  @mkAE Symbolic.framework 1e-4%float 512 256 32
    (Symbolic.Encoder resnet18_encoder false false)
    (Symbolic.Decoder resnet18_decoder 256 32 false false)
    (Symbolic.Linear 512 256).

End Samples.

(** The same constructor call with another [kl_coeff] and other extra
    keyword arguments. *)
Definition with_kl_coeff_kwargs (a : Init.Args) (kl : float) (kw : PyDict.t PyVal)
    : Init.Args :=
  {| Init.input_height := Init.input_height a; Init.enc_type := Init.enc_type a;
     Init.first_conv := Init.first_conv a; Init.maxpool1 := Init.maxpool1 a;
     Init.enc_out_dim := Init.enc_out_dim a; Init.kl_coeff := kl;
     Init.latent_dim := Init.latent_dim a; Init.lr := Init.lr a;
     Init.kwargs := kw |}.




(** ** Descriptions of runs

    Closed forms of what the constructor and the script do, used to state
    the properties below; each is proved equal to a run of the code. *)

Section Descriptions.

Context {F : Framework}.

(** The factories the constructor uses for an encoder type. *)
Definition factories (enc_type : string) : EncDec :=
  match PyDict.get enc_type valid_encoders with
  | Some e => e
  | None => {| enc := resnet18_encoder; dec := resnet18_decoder |}
  end.

Definition AE_built (a : Init.Args) : AE :=
  let fs := factories (Init.enc_type a) in
  {| lr := Init.lr a;
     enc_out_dim := Init.enc_out_dim a;
     latent_dim := Init.latent_dim a;
     input_height := Init.input_height a;
     encoder := call_encoder (enc fs) (Init.first_conv a) (Init.maxpool1 a);
     decoder := call_decoder (dec fs) (Init.latent_dim a) (Init.input_height a)
                  (Init.first_conv a) (Init.maxpool1 a);
     fc := nn_Linear (Init.enc_out_dim a) (Init.latent_dim a) |}.

(** The networks the constructor asks the framework for, in order. *)
Definition AE_networks (a : Init.Args) : list Event :=
  let fs := factories (Init.enc_type a) in
  [EvCallEncoder (enc fs) (Init.first_conv a) (Init.maxpool1 a);
   EvCallDecoder (dec fs) (Init.latent_dim a) (Init.input_height a)
     (Init.first_conv a) (Init.maxpool1 a);
   EvLinear (Init.enc_out_dim a) (Init.latent_dim a)].

Definition AE_init_calls (a : Init.Args) : list Event :=
  EvSuperInit :: EvSaveHyperparameters (Init.frame a) :: AE_networks a.

(** The data-module class a dataset name stands for. *)
Definition dataset_class (ds : string) : option DataModuleClass :=
  if (ds =? "cifar10")%string then Some CIFAR10DataModule
  else if (ds =? "stl10")%string then Some STL10DataModule
  else if (ds =? "imagenet")%string then Some ImagenetDataModule
  else None.

(** The namespace the script builds the model and the trainer from. *)
Definition run_args (parsed : Args.Namespace) (h : Z) : Args.Namespace :=
  let args := Args.set_input_height parsed h in
  if Args.max_steps_is args (-1) then Args.set_max_steps args None else args.

(** The dictionaries handed to [log_dict] during a run, with the flags. *)
Definition logged (t : list Event)
    : list (PyDict.t Tensor * option bool * option bool) :=
  flat_map
    (fun ev => match ev with EvLogDict _ d s e => [(d, s, e)] | _ => [] end) t.

(** The networks the framework was asked to build during a run. *)
Definition nets_built (t : list Event) : list Net :=
  flat_map
    (fun ev =>
       match ev with
       | EvCallEncoder f c p => [call_encoder f c p]
       | EvCallDecoder f l h c p => [call_decoder f l h c p]
       | EvLinear i o => [nn_Linear i o]
       | _ => []
       end) t.

(** The trainings launched during a run. *)
Definition fits (t : list Event) : list (Trainer * AE * DataModule) :=
  flat_map (fun ev => match ev with EvFit tr m dm => [(tr, m, dm)] | _ => [] end) t.

(** The namespaces data modules were built from. *)
Definition data_module_args (t : list Event) : list Args.Namespace :=
  flat_map (fun ev => match ev with EvFromArgparseArgs _ a => [a] | _ => [] end) t.

End Descriptions.

(** * Properties *)

(** ** Dictionaries *)

Lemma PyDict_get_keys {V : Type} (k : string) (d : PyDict.t V) :
  In k (PyDict.keys d) <-> exists v, PyDict.get k d = Some v.
Proof.
  induction d as [|[k' v'] d IH]; simpl.
  - split; [intros [] | intros [v Hv]; discriminate].
  - destruct (String.eqb_spec k k') as [->|Hne].
    + split; [intros _; now exists v' | intros _; now left].
    + rewrite <- IH. split; [intros [Heq|Hin]; [congruence | exact Hin] | now right].
Qed.

Lemma PyDict_contains_keys {V : Type} (k : string) (d : PyDict.t V) :
  PyDict.contains k d = true <-> In k (PyDict.keys d).
Proof.
  rewrite PyDict_get_keys. unfold PyDict.contains.
  destruct (PyDict.get k d) as [v|].
  - split; [intros _; now exists v | reflexivity].
  - split; [discriminate | intros [v Hv]; discriminate].
Qed.

Lemma PyDict_not_contains_keys {V : Type} (k : string) (d : PyDict.t V) :
  PyDict.contains k d = false <-> ~ In k (PyDict.keys d).
Proof.
  rewrite <- PyDict_contains_keys.
  destruct (PyDict.contains k d); split; congruence.
Qed.

(** ** The monad *)

Lemma bind_ret {E A B : Type} (a : A) (f : A -> M E B) : bind (ret a) f = f a.
Proof. unfold bind, ret. simpl. now destruct (f a). Qed.

Lemma bind_ret_r {E A : Type} (m : M E A) : bind m ret = m.
Proof.
  destruct m as [[a|e|e] t]; simpl; try reflexivity.
  now rewrite app_nil_r.
Qed.

Lemma bind_assoc {E A B C : Type} (m : M E A) (f : A -> M E B) (g : B -> M E C) :
  bind (bind m f) g = bind m (fun a => bind (f a) g).
Proof.
  destruct m as [[a|e|e] t]; simpl; try reflexivity.
  destruct (f a) as [[b|e|e] t']; simpl; try reflexivity.
  destruct (g b) as [r t'']. now rewrite app_assoc.
Qed.

Lemma bind_ext {E A B : Type} (ev : E) (a : A) (f : A -> M E B) :
  bind (ext ev a) f = (result (f a), ev :: trace (f a)).
Proof. unfold bind, ext, result, trace. simpl. now destruct (f a). Qed.

Lemma bind_raise {E A B : Type} (e : Exn) (f : A -> M E B) :
  bind (raise e) f = raise e.
Proof. reflexivity. Qed.

Lemma bind_fault {E A B : Type} (e : Exn) (f : A -> M E B) :
  bind (fault e) f = fault e.
Proof. reflexivity. Qed.

Section Properties.

Context {F : Framework}.

(** ** Runs in closed form *)

Lemma AE_init_run (a : Init.Args) :
  AE_init a = (Return (AE_built a), AE_init_calls a).
Proof.
  unfold AE_init, AE_built, AE_init_calls, AE_networks, factories, getitem,
    PyDict.contains.
  destruct (PyDict.get (Init.enc_type a) valid_encoders) as [e|]; reflexivity.
Qed.

Lemma cli_main_run (argv : option (list string)) :
  let ds := script_dataset (fst (parse_known_args script_parser argv)) in
  let parsed := parse_args full_parser argv in
  cli_main argv =
    match dataset_class ds with
    | None =>
        (Raise (ValueError ("undefined dataset " ++ ds)),
         [EvImportCallbacks; EvParseKnownArgs script_parser argv])
    | Some cls =>
        let dm := from_argparse_args cls parsed in
        let before :=
          [EvImportCallbacks; EvParseKnownArgs script_parser argv;
           EvParseArgs full_parser argv; EvFromArgparseArgs cls parsed; EvSize dm] in
        match rev (dm_size dm) with
        | [] => (Fault (IndexError "tuple index out of range"), before)
        | h :: _ =>
            let args := run_args parsed h in
            let model := AE_built (init_of_vars args h) in
            let trainer := Trainer_from_argparse_args args in
            (Return (dm, model, trainer),
             before ++ AE_init_calls (init_of_vars args h)
               ++ [EvSampler; EvTrainerFromArgparseArgs args; EvFit trainer model dm])
        end
    end.
Proof.
  intros ds parsed. subst ds parsed.
  unfold dataset_class, run_args.
  cbv [cli_main bind ext ret raise fault getitem_last AE_of_vars].
  fold script_parser. fold full_parser.
  destruct (parse_known_args script_parser argv) as [script_args rest].
  cbn [fst].
  destruct (script_dataset script_args =? "cifar10")%string;
    [|destruct (script_dataset script_args =? "stl10")%string;
      [|destruct (script_dataset script_args =? "imagenet")%string]];
    try reflexivity.
  all: match goal with
       | |- context [rev (dm_size ?d)] => destruct (rev (dm_size d)) as [|h t]
       end; [reflexivity|].
  all: destruct (Args.max_steps_is (Args.set_input_height (parse_args full_parser argv) h) (-1)).
  all: cbn [Args.input_height Args.set_input_height Args.set_max_steps].
  all: rewrite AE_init_run; reflexivity.
Qed.

(** Replace a run of the script by its closed form. *)
Ltac run_cli_main := rewrite cli_main_run; cbv zeta.

Lemma run_args_lr (parsed : Args.Namespace) (h : Z) :
  Args.lr (run_args parsed h) = Args.lr parsed.
Proof.
  unfold run_args.
  destruct (Args.max_steps_is (Args.set_input_height parsed h) (-1)); reflexivity.
Qed.

(** ** The pretrained-weights registry *)

Lemma from_pretrained_cases (self : AE) (checkpoint_name : string) :
  from_pretrained self checkpoint_name =
    match PyDict.get checkpoint_name pretrained_urls with
    | Some url => ext (EvLoadFromCheckpoint url false) (load_from_checkpoint url false)
    | None => raise (KeyError (checkpoint_name ++ " not present in pretrained weights."))
    end.
Proof.
  unfold from_pretrained, getitem, PyDict.contains.
  destruct (PyDict.get checkpoint_name pretrained_urls) as [url|]; reflexivity.
Qed.

(** C1.  For every checkpoint name, [from_pretrained] stops on a
    [KeyError] (whose message starts with the name) if and only if the
    name is not a key of [pretrained_urls]; when the name is a key, it
    returns what the framework loads from the mapped URL, non-strictly,
    and raises nothing. *)
Theorem from_pretrained_raises_iff_unknown (self : AE) (checkpoint_name : string) :
  ((exists msg, result (from_pretrained self checkpoint_name) = Raise (KeyError msg))
     <-> ~ In checkpoint_name (PyDict.keys pretrained_urls))
  /\ (~ In checkpoint_name (PyDict.keys pretrained_urls) ->
      from_pretrained self checkpoint_name =
        (Raise (KeyError (checkpoint_name ++ " not present in pretrained weights.")), []))
  /\ (In checkpoint_name (PyDict.keys pretrained_urls) ->
      exists url,
        PyDict.get checkpoint_name pretrained_urls = Some url
        /\ from_pretrained self checkpoint_name =
             (Return (load_from_checkpoint url false), [EvLoadFromCheckpoint url false])).
Proof.
  rewrite from_pretrained_cases, PyDict_get_keys.
  destruct (PyDict.get checkpoint_name pretrained_urls) as [url|] eqn:Hget.
  - repeat split.
    + intros [msg Hmsg]. discriminate Hmsg.
    + intros Hno. exfalso. apply Hno. now exists url.
    + intros Hno. exfalso. apply Hno. now exists url.
    + intros _. now exists url.
  - repeat split.
    + intros _ [v Hv]. discriminate Hv.
    + intros _. now eexists.
    + intros [v Hv]. discriminate Hv.
Qed.

(** C5.  [pretrained_weights_available] returns exactly the keys of
    [pretrained_urls], at present the single name ['cifar10-resnet18'],
    and for each of them [from_pretrained] loads the checkpoint from the
    URL the registry holds for it. *)
Theorem pretrained_registry_names_and_urls (self : AE) :
  pretrained_weights_available = (Return (PyDict.keys pretrained_urls), [])
  /\ PyDict.keys pretrained_urls = ["cifar10-resnet18"]
  /\ Forall
       (fun name =>
          exists url,
            PyDict.get name pretrained_urls = Some url
            /\ from_pretrained self name =
                 (Return (load_from_checkpoint url false), [EvLoadFromCheckpoint url false]))
       (PyDict.keys pretrained_urls)
  /\ PyDict.get "cifar10-resnet18" pretrained_urls =
       Some "https://pl-bolts-weights.s3.us-east-2.amazonaws.com/ae/ae-cifar10/checkpoints/epoch%3D96.ckpt".
Proof.
  split; [reflexivity|]. split; [reflexivity|]. split; [|reflexivity].
  apply Forall_forall. intros name Hin.
  apply PyDict_get_keys in Hin. destruct Hin as [url Hurl].
  exists url. split; [exact Hurl|].
  rewrite from_pretrained_cases, Hurl. reflexivity.
Qed.

(** ** Forward and step *)

(** C3.  For every batch [(x, y)] and batch index, [step] calls the
    encoder on [x], then [fc] on the features, then the decoder on the
    latent code, then the mean-reduced MSE loss of the reconstruction
    against [x]; it returns that loss together with a dictionary holding
    the same loss under ["loss"], and the outcome does not depend on the
    label (nor on the batch index). *)
Theorem step_encoder_fc_decoder_mse (self : AE) (x : Tensor) (y : Label) (batch_idx : Z) :
  let feats := net_call (encoder self) x in
  let z := net_call (fc self) feats in
  let x_hat := net_call (decoder self) z in
  let loss := mse_loss x_hat x "mean" in
  step self (x, y) batch_idx =
    (Return (loss, [("loss", loss)]),
     [EvNetCall (encoder self) x; EvNetCall (fc self) feats;
      EvNetCall (decoder self) z; EvMseLoss x_hat x "mean"])
  /\ nets_called (trace (step self (x, y) batch_idx)) =
       [encoder self; fc self; decoder self]
  /\ (forall (y' : Label) (batch_idx' : Z),
        step self (x, y') batch_idx' = step self (x, y) batch_idx).
Proof.
  intros feats z x_hat loss.
  assert (Hrun : step self (x, y) batch_idx =
                   (Return (loss, [("loss", loss)]),
                    [EvNetCall (encoder self) x; EvNetCall (fc self) feats;
                     EvNetCall (decoder self) z; EvMseLoss x_hat x "mean"])).
  { unfold step, call, F_mse_loss. rewrite !bind_ext. reflexivity. }
  split; [exact Hrun|]. split.
  - rewrite Hrun. reflexivity.
  - intros y' batch_idx'. rewrite Hrun.
    unfold step, call, F_mse_loss. rewrite !bind_ext. reflexivity.
Qed.

(** C9.  [forward] applies the decoder only: it returns [decoder(z)] and
    the decoder call is the only call it makes. *)
Theorem forward_is_decoder (self : AE) (z : Tensor) :
  forward self z = (Return (net_call (decoder self) z), [EvNetCall (decoder self) z])
  /\ nets_called (trace (forward self z)) = [decoder self].
Proof.
  unfold forward, call, ext. split.
  - reflexivity.
  - unfold trace, nets_called. cbn [snd flat_map app]. reflexivity.
Qed.

(** ** The constructor *)

Lemma factories_cases (enc_type : string) :
  factories enc_type = {| enc := resnet18_encoder; dec := resnet18_decoder |}
  \/ factories enc_type = {| enc := resnet50_encoder; dec := resnet50_decoder |}.
Proof.
  unfold factories. simpl.
  destruct (enc_type =? "resnet18")%string; [now left|].
  destruct (enc_type =? "resnet50")%string; [now right | now left].
Qed.

Lemma factories_fallback (enc_type : string) :
  enc_type <> "resnet50" ->
  factories enc_type = {| enc := resnet18_encoder; dec := resnet18_decoder |}.
Proof.
  intros Hne. unfold factories. simpl.
  destruct (enc_type =? "resnet18")%string; [reflexivity|].
  destruct (String.eqb_spec enc_type "resnet50"); [contradiction | reflexivity].
Qed.

(** C7.  For all arguments, the constructor returns (it raises nothing,
    whatever the [enc_type] string) an object holding an encoder, a
    decoder and a linear layer [fc] from [enc_out_dim] to [latent_dim]
    features; the decoder is built with the [latent_dim] and the
    [input_height] the object stores, and encoder and decoder come from
    the same resnet family. *)
Theorem AE_init_holds_encoder_decoder_fc (a : Init.Args) :
  exists (self : AE) (e : EncoderFn) (d : DecoderFn),
    result (AE_init a) = Return self
    /\ encoder self = call_encoder e (Init.first_conv a) (Init.maxpool1 a)
    /\ decoder self =
         call_decoder d (latent_dim self) (input_height self)
           (Init.first_conv a) (Init.maxpool1 a)
    /\ fc self = nn_Linear (enc_out_dim self) (latent_dim self)
    /\ enc_out_dim self = Init.enc_out_dim a
    /\ latent_dim self = Init.latent_dim a
    /\ input_height self = Init.input_height a
    /\ ((e, d) = (resnet18_encoder, resnet18_decoder)
        \/ (e, d) = (resnet50_encoder, resnet50_decoder))
    /\ trace (AE_init a) =
         [EvSuperInit; EvSaveHyperparameters (Init.frame a);
          EvCallEncoder e (Init.first_conv a) (Init.maxpool1 a);
          EvCallDecoder d (latent_dim self) (input_height self)
            (Init.first_conv a) (Init.maxpool1 a);
          EvLinear (enc_out_dim self) (latent_dim self)].
Proof.
  rewrite AE_init_run.
  exists (AE_built a), (enc (factories (Init.enc_type a))),
    (dec (factories (Init.enc_type a))).
  repeat split.
  destruct (factories_cases (Init.enc_type a)) as [-> | ->]; [now left | now right].
Qed.

Lemma frame_differs_in_enc_type_only (a : Init.Args) (e k : string) :
  k <> "enc_type" ->
  PyDict.get k (Init.frame a) = PyDict.get k (Init.frame (Init.with_enc_type a e)).
Proof.
  intros Hk. unfold Init.frame, Init.with_enc_type.
  cbn [Init.input_height Init.enc_type Init.first_conv Init.maxpool1
       Init.enc_out_dim Init.kl_coeff Init.latent_dim Init.lr Init.kwargs app
       PyDict.get].
  destruct (k =? "input_height")%string; [reflexivity|].
  destruct (String.eqb_spec k "enc_type") as [Heq|_]; [contradiction|reflexivity].
Qed.

(** C8, as amended.  For every [enc_type] other than ['resnet18'] and
    ['resnet50'], the constructor raises nothing and builds the resnet18
    encoder and the resnet18 decoder: it returns the object it returns
    for ['resnet18'] and asks the framework for the same networks.  The
    two calls differ in one place only: the frame [save_hyperparameters]
    snapshots holds the [enc_type] string as given, and agrees with the
    frame of the ['resnet18'] call on every other key. *)
Theorem AE_init_unknown_enc_type_is_resnet18 (a : Init.Args) :
  Init.enc_type a <> "resnet18" ->
  Init.enc_type a <> "resnet50" ->
  exists (self : AE) (networks : list Event),
    AE_init a =
      (Return self, EvSuperInit :: EvSaveHyperparameters (Init.frame a) :: networks)
    /\ AE_init (Init.with_enc_type a "resnet18") =
         (Return self,
          EvSuperInit
            :: EvSaveHyperparameters (Init.frame (Init.with_enc_type a "resnet18"))
            :: networks)
    /\ encoder self = call_encoder resnet18_encoder (Init.first_conv a) (Init.maxpool1 a)
    /\ decoder self =
         call_decoder resnet18_decoder (Init.latent_dim a) (Init.input_height a)
           (Init.first_conv a) (Init.maxpool1 a)
    /\ PyDict.get "enc_type" (Init.frame a) = Some (PyStr (Init.enc_type a))
    /\ PyDict.get "enc_type" (Init.frame (Init.with_enc_type a "resnet18")) =
         Some (PyStr "resnet18")
    /\ (forall k : string,
          k <> "enc_type" ->
          PyDict.get k (Init.frame a) =
            PyDict.get k (Init.frame (Init.with_enc_type a "resnet18"))).
Proof.
  intros _ H50.
  exists (AE_built a), (AE_networks a).
  rewrite !AE_init_run.
  unfold AE_init_calls, AE_built, AE_networks.
  cbn [Init.with_enc_type Init.enc_type Init.first_conv Init.maxpool1
       Init.latent_dim Init.input_height Init.enc_out_dim Init.lr].
  rewrite (factories_fallback _ H50).
  split; [reflexivity|]. split; [reflexivity|]. split; [reflexivity|].
  split; [reflexivity|]. split; [reflexivity|]. split; [reflexivity|].
  intros k Hk. apply frame_differs_in_enc_type_only. exact Hk.
Qed.

(** ** The optimizer *)

(** C6.  For every [lr], the constructor stores it as [self.lr] and
    [configure_optimizers] returns Adam over the model's parameters with
    exactly that [lr]; the script passes the parsed [--lr] to the
    constructor; the default is [1e-4] in the constructor and in the
    [--lr] argument. *)
Theorem lr_reaches_Adam (a : Init.Args) :
  (exists self : AE,
      result (AE_init a) = Return self
      /\ lr self = Init.lr a
      /\ let children :=
           [("encoder", encoder self); ("decoder", decoder self); ("fc", fc self)] in
         configure_optimizers self =
           (Return (Adam (parameters children) (Init.lr a)),
            [EvParameters children; EvAdam (parameters children) (Init.lr a)]))
  /\ (forall (args : Args.Namespace) (h : Z),
        Init.lr (init_of_vars args h) = Args.lr args)
  /\ (forall (argv : option (list string)) (dm : DataModule) (model : AE)
             (trainer : Trainer),
        result (cli_main argv) = Return (dm, model, trainer) ->
        lr model = Args.lr (parse_args full_parser argv))
  /\ (forall h : Z, Init.lr (Init.defaults h) = 1e-4%float)
  /\ (forall parent_parser : Parser,
        In (mkArg "--lr" (Store TyFloat) (PyFloat 1e-4) None)
           (parser_args (add_model_specific_args parent_parser))).
Proof.
  split; [|split; [|split; [|split]]].
  - exists (AE_built a). rewrite AE_init_run. repeat split.
  - reflexivity.
  - intros argv dm model trainer. run_cli_main.
    destruct (dataset_class _) as [cls|]; [|discriminate].
    destruct (rev (dm_size _)) as [|h t]; [discriminate|].
    unfold result. cbn [fst]. intros H. injection H as _ <- _.
    cbn [AE_built lr init_of_vars Init.lr]. apply run_args_lr.
  - reflexivity.
  - intros p. unfold add_model_specific_args, add_argument.
    cbn [parser_args]. rewrite !in_app_iff. simpl. tauto.
Qed.

(** ** The script *)

Lemma dataset_class_None (ds : string) :
  dataset_class ds = None <-> ds <> "cifar10" /\ ds <> "stl10" /\ ds <> "imagenet".
Proof.
  unfold dataset_class.
  destruct (String.eqb_spec ds "cifar10");
    [|destruct (String.eqb_spec ds "stl10");
      [|destruct (String.eqb_spec ds "imagenet")]];
    split; try discriminate; try tauto.
Qed.

Lemma dataset_class_Some (ds : string) (cls : DataModuleClass) :
  dataset_class ds = Some cls <->
  (ds = "cifar10" /\ cls = CIFAR10DataModule)
  \/ (ds = "stl10" /\ cls = STL10DataModule)
  \/ (ds = "imagenet" /\ cls = ImagenetDataModule).
Proof.
  unfold dataset_class. split.
  - destruct (String.eqb_spec ds "cifar10");
      [|destruct (String.eqb_spec ds "stl10");
        [|destruct (String.eqb_spec ds "imagenet")]];
      intros H; inversion H; tauto.
  - intros [[-> ->] | [[-> ->] | [-> ->]]]; reflexivity.
Qed.

Lemma cli_main_data_modules (argv : option (list string)) (cls : DataModuleClass) :
  dataset_class (script_dataset (fst (parse_known_args script_parser argv))) = Some cls ->
  data_modules (trace (cli_main argv)) = [cls].
Proof.
  intros Hcls. run_cli_main. rewrite Hcls.
  destruct (rev (dm_size _)); reflexivity.
Qed.

(** C4.  For every argument list, the parsed [--dataset] value selects the
    data module: ["cifar10"] the CIFAR10 one, ["stl10"] the STL10 one,
    ["imagenet"] the ImageNet one; any other value stops the script on a
    [ValueError] naming the undefined dataset, after the first parse only:
    no model has been constructed and no training launched. *)
Theorem cli_main_selects_data_module (argv : option (list string)) :
  let ds := script_dataset (fst (parse_known_args script_parser argv)) in
  (ds = "cifar10" -> data_modules (trace (cli_main argv)) = [CIFAR10DataModule])
  /\ (ds = "stl10" -> data_modules (trace (cli_main argv)) = [STL10DataModule])
  /\ (ds = "imagenet" -> data_modules (trace (cli_main argv)) = [ImagenetDataModule])
  /\ (ds <> "cifar10" -> ds <> "stl10" -> ds <> "imagenet" ->
      cli_main argv =
        (Raise (ValueError ("undefined dataset " ++ ds)),
         [EvImportCallbacks; EvParseKnownArgs script_parser argv])
      /\ existsb builds_or_trains (trace (cli_main argv)) = false).
Proof.
  intros ds. repeat split.
  - intros H. apply cli_main_data_modules. fold ds. now rewrite H.
  - intros H. apply cli_main_data_modules. fold ds. now rewrite H.
  - intros H. apply cli_main_data_modules. fold ds. now rewrite H.
  - run_cli_main. fold ds.
    now rewrite (proj2 (dataset_class_None ds) (conj H (conj H0 H1))).
  - run_cli_main. fold ds.
    now rewrite (proj2 (dataset_class_None ds) (conj H (conj H0 H1))).
Qed.

Lemma run_args_max_steps (parsed : Args.Namespace) (h : Z) :
  (Args.max_steps parsed = Some (-1) -> Args.max_steps (run_args parsed h) = None)
  /\ (Args.max_steps parsed <> Some (-1) ->
      Args.max_steps (run_args parsed h) = Args.max_steps parsed).
Proof.
  destruct parsed as [ds et fcv mp l eod ld bs nw dd g me ms fdr ih].
  unfold run_args, Args.max_steps_is, Args.set_input_height, Args.set_max_steps.
  cbn [Args.max_steps].
  destruct ms as [m|]; [|split; [discriminate | reflexivity]].
  destruct (Z.eqb_spec m (-1)) as [-> | Hne]; split; try reflexivity.
  - intros H. now contradiction H.
  - intros H. congruence.
Qed.

(** C10.  When the script gets as far as building the model (a known
    dataset, a data module with a non-empty size), the [max_steps] the
    model constructor and the trainer receive is [None] if the parsed
    value is [-1], and the parsed value otherwise; [-1] is the default
    the [--max_steps] argument declares. *)
Theorem cli_main_max_steps (argv : option (list string)) :
  let ds := script_dataset (fst (parse_known_args script_parser argv)) in
  let parsed := parse_args full_parser argv in
  ds = "cifar10" \/ ds = "stl10" \/ ds = "imagenet" ->
  (forall cls, dm_size (from_argparse_args cls parsed) <> []) ->
  exists passed : option Z,
    (Args.max_steps parsed = Some (-1) -> passed = None)
    /\ (Args.max_steps parsed <> Some (-1) -> passed = Args.max_steps parsed)
    /\ map (PyDict.get "max_steps") (hparams_frames (trace (cli_main argv))) =
         [Some (py_opt_int passed)]
    /\ map Args.max_steps (trainer_args (trace (cli_main argv))) = [passed]
    /\ In (mkArg "--max_steps" (Store TyInt) (PyInt (-1)) None) (parser_args full_parser).
Proof.
  intros ds parsed Hds Hsize.
  assert (exists cls, dataset_class ds = Some cls) as [cls Hcls].
  { destruct Hds as [H | [H | H]]; rewrite H; eexists; reflexivity. }
  run_cli_main. fold ds parsed. rewrite Hcls.
  specialize (Hsize cls).
  destruct (rev (dm_size (from_argparse_args cls parsed))) as [|h t] eqn:Hrev.
  { exfalso. apply Hsize. rewrite <- (rev_involutive (dm_size _)), Hrev. reflexivity. }
  exists (Args.max_steps (run_args parsed h)).
  destruct (run_args_max_steps parsed h) as [Hminus Hother].
  split; [exact Hminus|]. split; [exact Hother|]. split; [reflexivity|].
  split; [reflexivity|].
  unfold full_parser, add_model_specific_args, add_argument.
  cbn [parser_args]. rewrite !in_app_iff. simpl. tauto.
Qed.

(** ** Explicit errors *)

(** C2, as amended.  The code of the file raises two explicit errors and
    no other: [from_pretrained] raises the [KeyError] for a name that is
    not in the registry, and [cli_main] raises the [ValueError] for a
    dataset other than ["cifar10"], ["stl10"] and ["imagenet"]. *)
Theorem explicit_errors_are_lookup_or_dataset (op : Op) (e : Exn) :
  explicit_error op = Some e <->
  (exists (self : AE) (name : string),
      op = OpFromPretrained self name
      /\ ~ In name (PyDict.keys pretrained_urls)
      /\ e = KeyError (name ++ " not present in pretrained weights."))
  \/ (exists (argv : option (list string)) (ds : string),
        op = OpCliMain argv
        /\ ds = script_dataset (fst (parse_known_args script_parser argv))
        /\ ds <> "cifar10" /\ ds <> "stl10" /\ ds <> "imagenet"
        /\ e = ValueError ("undefined dataset " ++ ds)).
Proof.
  split.
  - destruct op as [a| |self n|self z|self [x y] i|self [x y] i|self [x y] i|self|p|argv];
      unfold explicit_error, raised; try discriminate.
    + rewrite AE_init_run. discriminate.
    + rewrite from_pretrained_cases.
      destruct (PyDict.get n pretrained_urls) as [url|] eqn:Hget; [discriminate|].
      intros H. injection H as <-. left. exists self, n. repeat split.
      rewrite PyDict_get_keys. intros [v Hv]. congruence.
    + run_cli_main.
      destruct (dataset_class _) as [cls|] eqn:Hcls.
      * destruct (rev (dm_size _)); discriminate.
      * intros H. injection H as <-. right.
        exists argv, (script_dataset (fst (parse_known_args script_parser argv))).
        apply dataset_class_None in Hcls. tauto.
  - intros [(self & name & -> & Hno & ->) | (argv & ds & -> & -> & H1 & H2 & H3 & ->)];
      unfold explicit_error, raised.
    + rewrite from_pretrained_cases.
      destruct (PyDict.get name pretrained_urls) as [url|] eqn:Hget; [|reflexivity].
      exfalso. apply Hno. rewrite PyDict_get_keys. now exists url.
    + run_cli_main.
      now rewrite (proj2 (dataset_class_None _) (conj H1 (conj H2 H3))).
Qed.

End Properties.

(** * Runs on the symbolic framework *)

(** C2, as first stated, fails: on the dataset ["mnist"] the script stops
    on a [ValueError], an explicit error that is not the lookup failure
    of [from_pretrained]. *)
Lemma cli_main_mnist_raises_ValueError :
  explicit_error (F := Symbolic.framework) (OpCliMain Symbolic.mnist_argv) =
    Some (ValueError "undefined dataset mnist")
  /\ cli_main (F := Symbolic.framework) Symbolic.mnist_argv =
       (Raise (ValueError "undefined dataset mnist"),
        [EvImportCallbacks; EvParseKnownArgs script_parser Symbolic.mnist_argv]).
Proof.
  split; reflexivity.
Qed.

(** C8, as first stated, fails: a model built with [enc_type = "vgg16"]
    is told apart from one built with ["resnet18"] by the hyperparameters
    the constructor has the framework record. *)
Lemma AE_init_vgg16_hparams_keep_enc_type :
  map (PyDict.get "enc_type")
    (hparams_frames (trace (AE_init (F := Symbolic.framework) Symbolic.vgg_args))) =
    [Some (PyStr "vgg16")]
  /\ map (PyDict.get "enc_type")
       (hparams_frames
          (trace (AE_init (F := Symbolic.framework)
                    (Init.with_enc_type Symbolic.vgg_args "resnet18")))) =
       [Some (PyStr "resnet18")].
Proof.
  split; reflexivity.
Qed.

(** C8, as amended, at [enc_type = "vgg16"]. *)
Lemma AE_init_vgg16_is_resnet18 :
  Init.enc_type Symbolic.vgg_args <> "resnet18"
  /\ Init.enc_type Symbolic.vgg_args <> "resnet50"
  /\ exists (self : AE) (networks : list Event),
       AE_init (F := Symbolic.framework) Symbolic.vgg_args =
         (Return self,
          EvSuperInit :: EvSaveHyperparameters (Init.frame Symbolic.vgg_args) :: networks)
       /\ AE_init (Init.with_enc_type Symbolic.vgg_args "resnet18") =
            (Return self,
             EvSuperInit
               :: EvSaveHyperparameters
                    (Init.frame (Init.with_enc_type Symbolic.vgg_args "resnet18"))
               :: networks)
       /\ encoder self = Symbolic.Encoder resnet18_encoder false false
       /\ decoder self = Symbolic.Decoder resnet18_decoder 256 32 false false
       /\ PyDict.get "enc_type" (Init.frame Symbolic.vgg_args) = Some (PyStr "vgg16")
       /\ PyDict.get "lr" (Init.frame Symbolic.vgg_args) =
            PyDict.get "lr" (Init.frame (Init.with_enc_type Symbolic.vgg_args "resnet18")).
Proof.
  assert (H18 : Init.enc_type Symbolic.vgg_args <> "resnet18")
    by (vm_compute; discriminate).
  assert (H50 : Init.enc_type Symbolic.vgg_args <> "resnet50")
    by (vm_compute; discriminate).
  split; [exact H18|]. split; [exact H50|].
  destruct (AE_init_unknown_enc_type_is_resnet18 (F := Symbolic.framework)
              Symbolic.vgg_args H18 H50)
    as (self & networks & Hrun & Hrun18 & Henc & Hdec & Hgiven & _ & Hother).
  exists self, networks.
  split; [exact Hrun|]. split; [exact Hrun18|].
  split; [exact Henc|]. split; [exact Hdec|]. split; [exact Hgiven|].
  apply Hother. discriminate.
Defined.

(** C10 on STL10: the default [--max_steps] reaches the constructor and
    the trainer as [None], and 500 steps as 500. *)
Lemma cli_main_max_steps_on_stl10 :
  (map (PyDict.get "max_steps")
     (hparams_frames (trace (cli_main (F := Symbolic.framework) Symbolic.stl10_argv))) =
     [Some PyNone]
   /\ map Args.max_steps
        (trainer_args (trace (cli_main (F := Symbolic.framework) Symbolic.stl10_argv))) =
        [None])
  /\ (map (PyDict.get "max_steps")
        (hparams_frames
           (trace (cli_main (F := Symbolic.framework) Symbolic.stl10_500_argv))) =
        [Some (PyInt 500)]
      /\ map Args.max_steps
           (trainer_args
              (trace (cli_main (F := Symbolic.framework) Symbolic.stl10_500_argv))) =
           [Some 500]).
Proof.
  split.
  - destruct (cli_main_max_steps (F := Symbolic.framework) Symbolic.stl10_argv)
      as (passed & Hminus & _ & Hframes & Htrainer & _).
    + right; left; reflexivity.
    + intros cls; destruct cls; discriminate.
    + rewrite Hframes, Htrainer, (Hminus eq_refl). split; reflexivity.
  - destruct (cli_main_max_steps (F := Symbolic.framework) Symbolic.stl10_500_argv)
      as (passed & _ & Hother & Hframes & Htrainer & _).
    + right; left; reflexivity.
    + intros cls; destruct cls; discriminate.
    + rewrite Hframes, Htrainer, Hother; [split; reflexivity | discriminate].
Defined.

(** C4 on STL10 and on a dataset the script does not define. *)
Lemma cli_main_selects_on_stl10_and_mnist :
  data_modules (trace (cli_main (F := Symbolic.framework) Symbolic.stl10_argv)) =
    [STL10DataModule]
  /\ existsb builds_or_trains
       (trace (cli_main (F := Symbolic.framework) Symbolic.mnist_argv)) = false.
Proof.
  split.
  - apply (cli_main_selects_data_module (F := Symbolic.framework) Symbolic.stl10_argv).
    reflexivity.
  - apply (cli_main_selects_data_module (F := Symbolic.framework) Symbolic.mnist_argv);
      vm_compute; discriminate.
Defined.

(** * Further properties *)

(** ** Lists *)


Lemma last_of_rev {A : Type} (l t : list A) (h d : A) :
  rev l = h :: t -> last l d = h.
Proof.
  intros Hrev.
  assert (Hl : l = rev t ++ [h]).
  { rewrite <- (rev_involutive l), Hrev. reflexivity. }
  rewrite Hl. apply last_last.
Qed.

(** ** The argument declarations *)





Section Further.

Context {F : Framework}.

Lemma step_run (self : AE) (x : Tensor) (y : Label) (batch_idx : Z) :
  exists loss : Tensor,
    step self (x, y) batch_idx =
      (Return (loss, [("loss", loss)]),
       [EvNetCall (encoder self) x;
        EvNetCall (fc self) (net_call (encoder self) x);
        EvNetCall (decoder self) (net_call (fc self) (net_call (encoder self) x));
        EvMseLoss
          (net_call (decoder self) (net_call (fc self) (net_call (encoder self) x)))
          x "mean"]).
Proof.
  eexists. unfold step, call, F_mse_loss. rewrite !bind_ext. reflexivity.
Qed.

(** ** Training and validation steps *)

(** X3.  [training_step] and [validation_step] each run [step] once on
    the batch and nothing before it: the same network calls, the same
    loss.  Training minimises that loss and logs it as ["train_loss"] on
    every step and not per epoch; validation checkpoints on it and logs
    it as ["val_loss"] with the framework's default flags. *)
Theorem training_and_validation_share_step
    (self : AE) (batch : Tensor * Label) (batch_idx : Z) :
  exists (loss : Tensor) (logs : PyDict.t Tensor),
    result (step self batch batch_idx) = Return (loss, logs)
    /\ training_step self batch batch_idx =
         (Return (log_dict (TrainResult loss) [("train_loss", loss)] (Some true) (Some false)),
          trace (step self batch batch_idx)
            ++ [EvTrainResult loss;
                EvLogDict (TrainResult loss) [("train_loss", loss)] (Some true) (Some false)])
    /\ validation_step self batch batch_idx =
         (Return (log_dict (EvalResult loss) [("val_loss", loss)] None None),
          trace (step self batch batch_idx)
            ++ [EvEvalResult loss;
                EvLogDict (EvalResult loss) [("val_loss", loss)] None None])
    /\ logged (trace (training_step self batch batch_idx)) =
         [([("train_loss", loss)], Some true, Some false)]
    /\ logged (trace (validation_step self batch batch_idx)) =
         [([("val_loss", loss)], None, None)]
    /\ nets_called (trace (training_step self batch batch_idx)) =
         nets_called (trace (validation_step self batch batch_idx)).
Proof.
  destruct batch as [x y].
  destruct (step_run self x y batch_idx) as (loss & Hstep).
  exists loss, [("loss", loss)].
  unfold training_step, validation_step.
  rewrite Hstep. unfold result, trace. cbn [fst snd].
  repeat split.
Qed.

(** ** The constructor *)

(** X5.  The networks [step] calls on a model the constructor returned
    are, up to order, the networks the constructor asked the framework to
    build: each of them is used once and no other network is called. *)
Theorem step_calls_the_networks_built
    (a : Init.Args) (self : AE) (batch : Tensor * Label) (batch_idx : Z) :
  result (AE_init a) = Return self ->
  Permutation (nets_called (trace (step self batch batch_idx)))
              (nets_built (trace (AE_init a))).
Proof.
  rewrite AE_init_run. unfold result, trace. cbn [fst snd].
  intros H. injection H as <-.
  destruct batch as [x y].
  destruct (step_run (AE_built a) x y batch_idx) as (loss & ->).
  cbn. apply perm_skip, perm_swap.
Qed.

(** X6.  [kl_coeff] and the extra keyword arguments have no effect on the
    object built: the constructor returns the same object and asks for
    the same networks whatever they are; they only appear in the frame
    [save_hyperparameters] snapshots. *)
Theorem AE_init_ignores_kl_coeff_and_kwargs
    (a : Init.Args) (kl : float) (kw : PyDict.t PyVal) :
  result (AE_init (with_kl_coeff_kwargs a kl kw)) = result (AE_init a)
  /\ nets_built (trace (AE_init (with_kl_coeff_kwargs a kl kw))) =
       nets_built (trace (AE_init a))
  /\ hparams_frames (trace (AE_init (with_kl_coeff_kwargs a kl kw))) =
       [Init.frame (with_kl_coeff_kwargs a kl kw)]
  /\ PyDict.get "kl_coeff" (Init.frame (with_kl_coeff_kwargs a kl kw)) =
       Some (PyFloat kl).
Proof.
  rewrite !AE_init_run. repeat split.
Qed.

(** ** The script *)

Lemma cli_main_returns (argv : option (list string))
    (dm : DataModule) (model : AE) (trainer : Trainer) :
  result (cli_main argv) = Return (dm, model, trainer) ->
  exists cls h t,
    dataset_class (script_dataset (fst (parse_known_args script_parser argv))) = Some cls
    /\ rev (dm_size dm) = h :: t
    /\ dm = from_argparse_args cls (parse_args full_parser argv)
    /\ model = AE_built (init_of_vars (run_args (parse_args full_parser argv) h) h)
    /\ trainer = Trainer_from_argparse_args (run_args (parse_args full_parser argv) h)
    /\ trace (cli_main argv) =
         [EvImportCallbacks; EvParseKnownArgs script_parser argv;
          EvParseArgs full_parser argv;
          EvFromArgparseArgs cls (parse_args full_parser argv); EvSize dm]
           ++ AE_init_calls (init_of_vars (run_args (parse_args full_parser argv) h) h)
           ++ [EvSampler;
               EvTrainerFromArgparseArgs (run_args (parse_args full_parser argv) h);
               EvFit trainer model dm].
Proof.
  rewrite cli_main_run. cbv zeta.
  destruct (dataset_class _) as [cls|]; [|discriminate].
  destruct (rev (dm_size _)) as [|h t] eqn:Hrev; [discriminate|].
  unfold result, trace. cbn [fst snd]. intros H. injection H as <- <- <-.
  exists cls, h, t. repeat split. exact Hrev.
Qed.

Lemma run_args_input_height (parsed : Args.Namespace) (h : Z) :
  Args.input_height (run_args parsed h) = Some h.
Proof.
  unfold run_args.
  destruct (Args.max_steps_is (Args.set_input_height parsed h) (-1)); reflexivity.
Qed.

(** X8.  In a run that returns, the model's [input_height] is the last
    entry of the data module's size, and the trainer's namespace holds it
    too; the networks built are those of the model returned; training is
    launched once, as the last call of the run, on the triple the script
    returns. *)
Theorem cli_main_returns_what_it_trained (argv : option (list string))
    (dm : DataModule) (model : AE) (trainer : Trainer) :
  result (cli_main argv) = Return (dm, model, trainer) ->
  input_height model = last (dm_size dm) 0
  /\ map Args.input_height (trainer_args (trace (cli_main argv))) =
       [Some (input_height model)]
  /\ nets_built (trace (cli_main argv)) = [encoder model; decoder model; fc model]
  /\ fits (trace (cli_main argv)) = [(trainer, model, dm)]
  /\ exists before, trace (cli_main argv) = before ++ [EvFit trainer model dm].
Proof.
  intros Hret.
  destruct (cli_main_returns argv dm model trainer Hret)
    as (cls & h & t & _ & Hrev & _ & Hmodel & _ & Htrace).
  rewrite Htrace. subst model.
  split; [symmetry; exact (last_of_rev _ _ _ _ Hrev)|].
  split; [cbn; now rewrite run_args_input_height|].
  split; [reflexivity|]. split; [reflexivity|].
  exists ([EvImportCallbacks; EvParseKnownArgs script_parser argv;
           EvParseArgs full_parser argv;
           EvFromArgparseArgs cls (parse_args full_parser argv); EvSize dm]
            ++ AE_init_calls (init_of_vars (run_args (parse_args full_parser argv) h) h)
            ++ [EvSampler;
                EvTrainerFromArgparseArgs (run_args (parse_args full_parser argv) h)]).
  rewrite <- !app_assoc. reflexivity.
Qed.

(** X9.  In a run that returns, the data module is built from the
    namespace as parsed (its [max_steps] not yet rewritten), and the
    namespace the trainer is built from agrees with the parsed one on
    every attribute other than [max_steps] and [input_height]. *)
Theorem cli_main_keeps_parsed_attributes (argv : option (list string))
    (dm : DataModule) (model : AE) (trainer : Trainer) :
  result (cli_main argv) = Return (dm, model, trainer) ->
  let parsed := parse_args full_parser argv in
  data_module_args (trace (cli_main argv)) = [parsed]
  /\ exists ns,
       trainer_args (trace (cli_main argv)) = [ns]
       /\ Args.dataset ns = Args.dataset parsed
       /\ Args.enc_type ns = Args.enc_type parsed
       /\ Args.first_conv ns = Args.first_conv parsed
       /\ Args.maxpool1 ns = Args.maxpool1 parsed
       /\ Args.lr ns = Args.lr parsed
       /\ Args.enc_out_dim ns = Args.enc_out_dim parsed
       /\ Args.latent_dim ns = Args.latent_dim parsed
       /\ Args.batch_size ns = Args.batch_size parsed
       /\ Args.num_workers ns = Args.num_workers parsed
       /\ Args.data_dir ns = Args.data_dir parsed
       /\ Args.gpus ns = Args.gpus parsed
       /\ Args.max_epochs ns = Args.max_epochs parsed
       /\ Args.fast_dev_run ns = Args.fast_dev_run parsed.
Proof.
  intros Hret parsed.
  destruct (cli_main_returns argv dm model trainer Hret)
    as (cls & h & t & _ & _ & _ & _ & _ & Htrace).
  rewrite Htrace. fold parsed. split; [reflexivity|].
  exists (run_args parsed h). split; [reflexivity|].
  unfold run_args.
  destruct (Args.max_steps_is (Args.set_input_height parsed h) (-1));
    repeat split.
Qed.

(** X10.  In a run that returns, the parsed [--enc_type] decides the
    networks as in the constructor: ["resnet50"] builds the resnet50
    encoder and decoder, every other string the resnet18 ones, with the
    parsed [first_conv], [maxpool1] and [latent_dim] and the data
    module's [input_height], the last entry of its size. *)
Theorem cli_main_enc_type (argv : option (list string))
    (dm : DataModule) (model : AE) (trainer : Trainer) :
  result (cli_main argv) = Return (dm, model, trainer) ->
  let parsed := parse_args full_parser argv in
  (Args.enc_type parsed = "resnet50" ->
   encoder model =
     call_encoder resnet50_encoder (Args.first_conv parsed) (Args.maxpool1 parsed)
   /\ decoder model =
        call_decoder resnet50_decoder (Args.latent_dim parsed) (input_height model)
          (Args.first_conv parsed) (Args.maxpool1 parsed))
  /\ (Args.enc_type parsed <> "resnet50" ->
      encoder model =
        call_encoder resnet18_encoder (Args.first_conv parsed) (Args.maxpool1 parsed)
      /\ decoder model =
           call_decoder resnet18_decoder (Args.latent_dim parsed) (input_height model)
             (Args.first_conv parsed) (Args.maxpool1 parsed))
  /\ input_height model = last (dm_size dm) 0.
Proof.
  intros Hret parsed.
  destruct (cli_main_returns argv dm model trainer Hret)
    as (cls & h & t & _ & Hrev & _ & Hmodel & _ & _).
  fold parsed in Hmodel. rewrite Hmodel.
  assert (Hargs :
            Args.enc_type (run_args parsed h) = Args.enc_type parsed
            /\ Args.first_conv (run_args parsed h) = Args.first_conv parsed
            /\ Args.maxpool1 (run_args parsed h) = Args.maxpool1 parsed
            /\ Args.latent_dim (run_args parsed h) = Args.latent_dim parsed).
  { unfold run_args.
    destruct (Args.max_steps_is (Args.set_input_height parsed h) (-1)); repeat split. }
  destruct Hargs as (He & Hc & Hp & Hl).
  unfold AE_built, init_of_vars.
  cbn [encoder decoder input_height Init.enc_type Init.first_conv Init.maxpool1
       Init.latent_dim Init.input_height].
  rewrite He, Hc, Hp, Hl. split; [|split].
  - intros H50. rewrite H50. split; reflexivity.
  - intros Hne. rewrite (factories_fallback _ Hne). split; reflexivity.
  - symmetry. exact (last_of_rev _ _ _ _ Hrev).
Qed.

(** ** Forward inside step *)

(** X11.  The decoding stage of [step] is [forward]: after the encoder and
    [fc] calls, [step] makes the calls of [forward] on the latent code
    and takes the loss of what [forward] returns against the input. *)
Theorem step_decodes_with_forward (self : AE) (x : Tensor) (y : Label) (batch_idx : Z) :
  let z := net_call (fc self) (net_call (encoder self) x) in
  exists x_hat : Tensor,
    result (forward self z) = Return x_hat
    /\ result (step self (x, y) batch_idx) =
         Return (mse_loss x_hat x "mean", [("loss", mse_loss x_hat x "mean")])
    /\ trace (step self (x, y) batch_idx) =
         [EvNetCall (encoder self) x; EvNetCall (fc self) (net_call (encoder self) x)]
           ++ trace (forward self z) ++ [EvMseLoss x_hat x "mean"].
Proof.
  intros z. subst z. exists (net_call (decoder self) (net_call (fc self) (net_call (encoder self) x))).
  unfold step, forward, call, F_mse_loss. rewrite !bind_ext.
  unfold result, trace, ext, ret. cbn [fst snd app].
  repeat split.
Qed.

End Further.

(** * Further runs on the symbolic framework *)


(** X5 on the default constructor call. *)
Lemma step_calls_the_networks_built_by_default :
  result (AE_init (F := Symbolic.framework) Samples.cifar_args) = Return Samples.model
  /\ Permutation
       (nets_called (trace (step Samples.model Samples.batch 0)))
       (nets_built (trace (AE_init (F := Symbolic.framework) Samples.cifar_args))).
Proof.
  split; [reflexivity|].
  apply (step_calls_the_networks_built (F := Symbolic.framework)
           Samples.cifar_args Samples.model Samples.batch 0).
  reflexivity.
Defined.

(** X8 on STL10: the model is built for 96-pixel images. *)
Lemma cli_main_on_stl10_trains_what_it_returns :
  exists dm model trainer,
    result (cli_main (F := Symbolic.framework) Symbolic.stl10_argv) =
      Return (dm, model, trainer)
    /\ input_height model = 96
    /\ fits (trace (cli_main (F := Symbolic.framework) Symbolic.stl10_argv)) =
         [(trainer, model, dm)].
Proof.
  eexists _, _, _. split; [vm_compute; reflexivity|].
  destruct (cli_main_returns_what_it_trained (F := Symbolic.framework)
              Symbolic.stl10_argv _ _ _ eq_refl) as (Hheight & _ & _ & Hfits & _).
  split; [exact (eq_trans Hheight eq_refl) | exact Hfits].
Defined.

(** X9 on STL10 with 500 steps: the data module and the trainer see the
    same dataset and batch size. *)
Lemma cli_main_on_stl10_keeps_parsed_attributes :
  exists dm model trainer,
    result (cli_main (F := Symbolic.framework) Symbolic.stl10_500_argv) =
      Return (dm, model, trainer)
    /\ data_module_args
         (trace (cli_main (F := Symbolic.framework) Symbolic.stl10_500_argv)) =
         [parse_args (Framework := Symbolic.framework) full_parser Symbolic.stl10_500_argv].
Proof.
  eexists _, _, _. split; [vm_compute; reflexivity|].
  destruct (cli_main_keeps_parsed_attributes (F := Symbolic.framework)
              Symbolic.stl10_500_argv _ _ _ eq_refl) as (Hdm & _).
  exact Hdm.
Defined.

(** X10 on STL10 with [--enc_type vgg16]: the resnet18 networks. *)
Lemma cli_main_on_vgg16_builds_resnet18 :
  exists dm model trainer,
    result (cli_main (F := Symbolic.framework) Samples.vgg_argv) =
      Return (dm, model, trainer)
    /\ encoder model = Symbolic.Encoder resnet18_encoder false false
    /\ decoder model = Symbolic.Decoder resnet18_decoder 256 96 false false.
Proof.
  eexists _, _, _. split; [vm_compute; reflexivity|].
  destruct (cli_main_enc_type (F := Symbolic.framework)
              Samples.vgg_argv _ _ _ eq_refl) as (_ & Hother & _).
  apply Hother. vm_compute. discriminate.
Defined.
